(** * The two-tier build cache of server/builder/cache.go

    A shallow embedding of the local cache (manifests on disk, layer
    entries in an in-memory map), of the bucket behind it and of the four
    operations that compose them, followed by the properties of the
    specification that concern them.

    Go's effects are made explicit:
    - the file system, the bucket, the heap cells that returned pointers
      refer to, the goroutines started with [go] and the log are fields of
      a [World] that every operation threads through a state monad;
    - every call that can return an error in the source consults an
      environment [Env] that says whether this call fails for a reason
      outside the program (permissions, a full disk, the network, a
      cancelled context).  The [ctx] argument of the source is only passed
      on to the bucket client; its cancellation is one of these reasons.
    - the two mutexes serialise the accesses of concurrent requests; the
      model runs operations and goroutines one after the other, so they do
      not appear. *)

From Stdlib Require Import ZArith Strings.Byte DecimalString.
From stdpp Require Import gmap strings list fin_maps.

Open Scope string_scope.
Open Scope list_scope.

(** ** Data *)

(** [[]byte] and [json.RawMessage]. *)
Definition bytes : Type := list byte.

(** What the source knows of the layer entry type [manifest.Entry], which is
    declared in another package: the zero value its variables start with and
    its JSON encoding.  [json.Marshal] also returns an error, which its only
    call site discards ([j, _ := json.Marshal(&entry)]); [jsonMarshal] is the
    byte slice it returns.  [jsonUnmarshal] is [None] where [json.Unmarshal]
    returns an error.  Entries are plain values: an assignment, a map read
    or a map write copies the entry and shares nothing with the original. *)
Class GoEntry (Entry : Type) : Type := {
  zeroEntry : Entry;
  jsonMarshal : Entry -> bytes;
  jsonUnmarshal : bytes -> option Entry
}.

(** Go's [error] values, as far as the code tells them apart: it only ever
    tests [err != nil]. *)
Inductive error : Type :=
  | ErrNotExist (name : string)
  | ErrFailed (name : string)
  | ErrJSON.

(** The calls of the source that return an error. *)
Inductive iocall : Type :=
  | OsMkdirAll (path : string)
  | OsOpen (path : string)
  | OsReadAll (path : string)
  | OsWriteFile (path : string)
  | ObjAttrs (name : string)
  | ObjNewReader (name : string)
  | ObjRead (name : string)
  | ObjCopy (name : string)
  | ObjClose (name : string).

(** The environment: [true] where a call fails for an outside reason. *)
Definition Env : Type := iocall -> bool.

Definition healthy : Env := fun _ => false.

(** logrus levels used by the source and the entries it writes. *)
Inductive Level : Type := Debug | Info | Error.

Inductive FieldValue : Type :=
  | FStr (s : string)
  | FInt (n : Z).

Record LogEntry : Type := mkLog {
  level : Level;
  withError : option error;
  fields : list (string * FieldValue);
  message : string
}.

(** What a call that can fail returns: Go's [(value, err)] pairs. *)
Inductive result (A : Type) : Type :=
  | Ok (a : A)
  | Err (e : error).
Arguments Ok {A} a.
Arguments Err {A} e.

(** ** The state monad of the operations *)

Definition StateM (S A : Type) : Type := S -> A * S.

Definition ret {S A} (a : A) : StateM S A := fun w => (a, w).

Definition bind {S A B} (c : StateM S A) (k : A -> StateM S B) : StateM S B :=
  fun w => let (a, w') := c w in k a w'.

Definition get {S} : StateM S S := fun w => (w, w).

Definition modify {S} (f : S -> S) : StateM S unit := fun w => (tt, f w).

Declare Scope go_scope.
Delimit Scope go_scope with go.
Notation "x <~ c ;; k" := (bind c (fun x => k))
  (at level 100, c at next level, right associativity) : go_scope.
Notation "c ;;; k" := (bind c (fun _ => k))
  (at level 100, right associativity) : go_scope.
Open Scope go_scope.

Section Cache.

Context {Entry : Type} `{!GoEntry Entry}.

(** [type LocalCache struct]: the directory of the manifest files and the
    layer map (the two mutexes are left out, see above). *)
Record LocalCache : Type := mkLocalCache {
  mdir : string;
  lcache : gmap string Entry
}.

(** A pointer to a [manifest.Entry]: [None] is [nil], [Some l] the heap
    cell [l]. *)
Definition EntryPtr : Type := option nat.

(** The calls started with [go]. *)
Inductive Goroutine : Type :=
  | GoLocalCacheManifest (key : string) (m : bytes)
  | GoLocalCacheLayer (key : string) (e : Entry).

(** The [State] the operations receive ([s.Cache], [s.Bucket], the bucket
    being the objects it holds by name) together with the process around
    it. *)
Record World : Type := mkWorld {
  tempDir : string;
  dirs : gset string;
  files : gmap string bytes;
  Cache : LocalCache;
  Bucket : gmap string bytes;
  heap : list Entry;
  goroutines : list Goroutine;
  logs : list LogEntry;
  calls : list iocall
}.

Definition set_dirs (d : gset string) (w : World) : World :=
  mkWorld (tempDir w) d (files w) (Cache w) (Bucket w) (heap w)
          (goroutines w) (logs w) (calls w).

Definition set_files (f : gmap string bytes) (w : World) : World :=
  mkWorld (tempDir w) (dirs w) f (Cache w) (Bucket w) (heap w)
          (goroutines w) (logs w) (calls w).

Definition set_Cache (c : LocalCache) (w : World) : World :=
  mkWorld (tempDir w) (dirs w) (files w) c (Bucket w) (heap w)
          (goroutines w) (logs w) (calls w).

Definition set_Bucket (b : gmap string bytes) (w : World) : World :=
  mkWorld (tempDir w) (dirs w) (files w) (Cache w) b (heap w)
          (goroutines w) (logs w) (calls w).

Definition set_heap (h : list Entry) (w : World) : World :=
  mkWorld (tempDir w) (dirs w) (files w) (Cache w) (Bucket w) h
          (goroutines w) (logs w) (calls w).

Definition set_goroutines (g : list Goroutine) (w : World) : World :=
  mkWorld (tempDir w) (dirs w) (files w) (Cache w) (Bucket w) (heap w)
          g (logs w) (calls w).

Definition set_logs (l : list LogEntry) (w : World) : World :=
  mkWorld (tempDir w) (dirs w) (files w) (Cache w) (Bucket w) (heap w)
          (goroutines w) l (calls w).

Definition set_calls (c : list iocall) (w : World) : World :=
  mkWorld (tempDir w) (dirs w) (files w) (Cache w) (Bucket w) (heap w)
          (goroutines w) (logs w) c.

Definition M (A : Type) : Type := StateM World A.

(** ** The calls into the operating system, the bucket client and logrus *)

(** Every call that can fail is recorded in [calls] and asks the
    environment whether it fails. *)
Definition call (env : Env) (c : iocall) : M bool :=
  fun w => (env c, set_calls (calls w ++ [c]) w).

Definition logf (l : Level) (err : option error)
    (fs : list (string * FieldValue)) (msg : string) : M unit :=
  modify (fun w => set_logs (logs w ++ [mkLog l err fs msg]) w).

(** [go f(...)]: the call is started and runs later, see [await]. *)
Definition spawn (g : Goroutine) : M unit :=
  modify (fun w => set_goroutines (goroutines w ++ [g]) w).

(** A variable whose address is taken: a new heap cell. *)
Definition new (e : Entry) : M nat :=
  fun w => (length (heap w), set_heap (heap w ++ [e]) w).

(** [os.MkdirAll(path, 0755)]: succeeds also when the directory exists.
    Only the directory named is tracked, not the parents it may create. *)
Definition os_MkdirAll (env : Env) (path : string) : M (option error) :=
  failed <~ call env (OsMkdirAll path) ;;
  if failed : bool then ret (Some (ErrFailed path))
  else modify (fun w => set_dirs ({[path]} ∪ dirs w) w) ;;; ret None.

(** [os.Open(path)]: fails when there is no such file, and when the
    environment says so. *)
Definition os_Open (env : Env) (path : string) : M (option error) :=
  failed <~ call env (OsOpen path) ;;
  w <~ get ;;
  if failed : bool then ret (Some (ErrFailed path))
  else match files w !! path with
       | None => ret (Some (ErrNotExist path))
       | Some _ => ret None
       end.

(** [ioutil.ReadAll(f)] on the file opened at [path]. *)
Definition file_ReadAll (env : Env) (path : string) : M (result bytes) :=
  failed <~ call env (OsReadAll path) ;;
  w <~ get ;;
  if failed : bool then ret (Err (ErrFailed path))
  else match files w !! path with
       | None => ret (Err (ErrNotExist path))
       | Some m => ret (Ok m)
       end.

(** [ioutil.WriteFile(path, data, 0644)].  A failing write is one that can
    not create or open its file (the directory is missing or not
    writable, say) and leaves the files as they were; a write that fails
    half-way and leaves a truncated file is not modelled. *)
Definition ioutil_WriteFile (env : Env) (path : string) (data : bytes)
    : M (option error) :=
  failed <~ call env (OsWriteFile path) ;;
  if failed : bool then ret (Some (ErrFailed path))
  else modify (fun w => set_files (<[path := data]> (files w)) w) ;;;
       ret None.

(** [obj.Attrs(ctx)]: the existence probe. *)
Definition obj_Attrs (env : Env) (name : string) : M (option error) :=
  failed <~ call env (ObjAttrs name) ;;
  w <~ get ;;
  if failed : bool then ret (Some (ErrFailed name))
  else match Bucket w !! name with
       | None => ret (Some (ErrNotExist name))
       | Some _ => ret None
       end.

(** [obj.NewReader(ctx)]. *)
Definition obj_NewReader (env : Env) (name : string) : M (option error) :=
  failed <~ call env (ObjNewReader name) ;;
  w <~ get ;;
  if failed : bool then ret (Some (ErrFailed name))
  else match Bucket w !! name with
       | None => ret (Some (ErrNotExist name))
       | Some _ => ret None
       end.

(** [ioutil.ReadAll(r)] and [io.Copy(jb, r)] on the reader of an object. *)
Definition obj_ReadAll (env : Env) (name : string) : M (result bytes) :=
  failed <~ call env (ObjRead name) ;;
  w <~ get ;;
  if failed : bool then ret (Err (ErrFailed name))
  else match Bucket w !! name with
       | None => ret (Err (ErrNotExist name))
       | Some m => ret (Ok m)
       end.

(** [io.Copy(w, r)] into the writer of an object: the number of bytes
    copied.  The object itself appears when the writer is closed without
    an error; until then the bucket is as it was. *)
Definition io_Copy (env : Env) (name : string) (data : bytes) : M (result Z) :=
  failed <~ call env (ObjCopy name) ;;
  if failed : bool then ret (Err (ErrFailed name))
  else ret (Ok (Z.of_nat (length data))).

(** [w.Close()] on the writer of an object that [data] was copied to. *)
Definition writer_Close (env : Env) (name : string) (data : bytes)
    : M (option error) :=
  failed <~ call env (ObjClose name) ;;
  if failed : bool then ret (Some (ErrFailed name))
  else modify (fun w => set_Bucket (<[name := data]> (Bucket w)) w) ;;;
       ret None.

(** ** LocalCache *)

(** [func NewCache() (LocalCache, error)].  With the error comes the zero
    [LocalCache], whose nil map reads as the empty map. *)
Definition NewCache (env : Env) : M (LocalCache * option error) :=
  w <~ get ;;
  let path := tempDir w +:+ "/nixery" in
  err <~ os_MkdirAll env path ;;
  match err with
  | Some e => ret (mkLocalCache "" ∅, Some e)
  | None => ret (mkLocalCache (path +:+ "/") ∅, None)
  end.

(** [func (c *LocalCache) manifestFromLocalCache(key)]: [None] is the nil
    slice. *)
Definition manifestFromLocalCache (env : Env) (key : string)
    : M (option bytes * bool) :=
  w <~ get ;;
  let path := mdir (Cache w) +:+ key in
  err <~ os_Open env path ;;
  match err with
  | Some e =>
      logf Debug (Some e) [("manifest", FStr key)]
           "failed to read manifest from local cache" ;;;
      ret (None, false)
  | None =>
      r <~ file_ReadAll env path ;;
      match r with
      | Err e =>
          logf Error (Some e) [("manifest", FStr key)]
               "failed to read manifest from local cache" ;;;
          ret (None, false)
      | Ok m => ret (Some m, true)
      end
  end.

(** [func (c *LocalCache) localCacheManifest(key, m)]. *)
Definition localCacheManifest (env : Env) (key : string) (m : bytes) : M unit :=
  w <~ get ;;
  err <~ ioutil_WriteFile env (mdir (Cache w) +:+ key) m ;;
  match err with
  | Some e =>
      logf Error (Some e) [("manifest", FStr key)]
           "failed to locally cache manifest"
  | None => ret tt
  end.

(** [func (c *LocalCache) layerFromLocalCache(key)]: [e, ok := c.lcache[key]]
    copies the stored entry, or the zero value, into the local [e], and the
    address of [e] is returned. *)
Definition layerFromLocalCache (key : string) : M (EntryPtr * bool) :=
  w <~ get ;;
  let (e, ok) := match lcache (Cache w) !! key with
                 | Some e => (e, true)
                 | None => (zeroEntry, false)
                 end in
  l <~ new e ;;
  ret (Some l, ok).

(** [func (c *LocalCache) localCacheLayer(key, e)]. *)
Definition localCacheLayer (key : string) (e : Entry) : M unit :=
  modify (fun w =>
    set_Cache (mkLocalCache (mdir (Cache w)) (<[key := e]> (lcache (Cache w)))) w).

(** ** The cache in front of the bucket *)

(** [func manifestFromCache(ctx, s, key)]. *)
Definition manifestFromCache (env : Env) (key : string)
    : M (option bytes * bool) :=
  r <~ manifestFromLocalCache env key ;;
  if snd r then ret (fst r, true)
  else
    let name := "manifests/" +:+ key in
    err <~ obj_Attrs env name ;;
    match err with
    | Some _ => ret (None, false)
    | None =>
        err <~ obj_NewReader env name ;;
        match err with
        | Some e =>
            logf Error (Some e) [("manifest", FStr key)]
                 "failed to retrieve manifest from bucket cache" ;;;
            ret (None, false)
        | None =>
            r <~ obj_ReadAll env name ;;
            match r with
            | Err e =>
                logf Error (Some e) [("manifest", FStr key)]
                     "failed to read cached manifest from bucket" ;;;
                ret (None, false)
            | Ok m =>
                spawn (GoLocalCacheManifest key m) ;;;
                logf Info None [("manifest", FStr key)]
                     "retrieved manifest from GCS" ;;;
                ret (Some m, true)
            end
        end
    end.

(** [func cacheManifest(ctx, s, key, m)]. *)
Definition cacheManifest (env : Env) (key : string) (m : bytes) : M unit :=
  spawn (GoLocalCacheManifest key m) ;;;
  let name := "manifests/" +:+ key in
  r <~ io_Copy env name m ;;
  match r with
  | Err e =>
      logf Error (Some e) [("manifest", FStr key)]
           "failed to cache manifest to GCS"
  | Ok size =>
      err <~ writer_Close env name m ;;
      match err with
      | Some e =>
          logf Error (Some e) [("manifest", FStr key)]
               "failed to cache manifest to GCS"
      | None =>
          logf Info None [("manifest", FStr key); ("size", FInt size)]
               "cached manifest to GCS"
      end
  end.

(** [func layerFromCache(ctx, s, key)]. *)
Definition layerFromCache (env : Env) (key : string) : M (EntryPtr * bool) :=
  r <~ layerFromLocalCache key ;;
  if snd r then ret (fst r, true)
  else
    let name := "builds/" +:+ key in
    err <~ obj_Attrs env name ;;
    match err with
    | Some _ => ret (None, false)
    | None =>
        err <~ obj_NewReader env name ;;
        match err with
        | Some e =>
            logf Error (Some e) [("layer", FStr key)]
                 "failed to retrieve cached layer from GCS" ;;;
            ret (None, false)
        | None =>
            r <~ obj_ReadAll env name ;;
            match r with
            | Err e =>
                logf Error (Some e) [("layer", FStr key)]
                     "failed to read cached layer from GCS" ;;;
                ret (None, false)
            | Ok jb =>
                match jsonUnmarshal jb with
                | None =>
                    logf Error (Some ErrJSON) [("layer", FStr key)]
                         "failed to unmarshal cached layer" ;;;
                    ret (None, false)
                | Some entry =>
                    spawn (GoLocalCacheLayer key entry) ;;;
                    l <~ new entry ;;
                    ret (Some l, true)
                end
            end
        end
    end.

(** [func cacheLayer(ctx, s, key, entry)]. *)
Definition cacheLayer (env : Env) (key : string) (entry : Entry) : M unit :=
  localCacheLayer key entry ;;;
  let name := "builds/" +:+ key in
  let j := jsonMarshal entry in
  r <~ io_Copy env name j ;;
  match r with
  | Err e => logf Error (Some e) [("layer", FStr key)] "failed to cache layer"
  | Ok _ =>
      err <~ writer_Close env name j ;;
      match err with
      | Some e =>
          logf Error (Some e) [("layer", FStr key)] "failed to cache layer"
      | None => ret tt
      end
  end.

(** ** Goroutines *)

Definition run_goroutine (env : Env) (g : Goroutine) : M unit :=
  match g with
  | GoLocalCacheManifest key m => localCacheManifest env key m
  | GoLocalCacheLayer key e => localCacheLayer key e
  end.

Fixpoint run_all (env : Env) (gs : list Goroutine) : M unit :=
  match gs with
  | [] => ret tt
  | g :: gs' => run_goroutine env g ;;; run_all env gs'
  end.

(** Waiting until the goroutines started so far have run, here in the
    order in which they were started. *)
Definition await (env : Env) : M unit :=
  w <~ get ;;
  modify (set_goroutines []) ;;;
  run_all env (goroutines w).

(** Reading and writing through a pointer (only pointers that are not nil
    are written through below). *)
Definition deref (w : World) (p : EntryPtr) : option Entry :=
  match p with
  | None => None
  | Some l => heap w !! l
  end.

Definition assign (p : EntryPtr) (v : Entry) (w : World) : World :=
  match p with
  | None => w
  | Some l => set_heap (<[l := v]> (heap w)) w
  end.

(** Nothing was removed between [w] and [w']: every file, every object
    and every key of the layer map is still there, every heap cell holds
    what it held, and the cache has the backing directory it had. *)
Definition grows (w w' : World) : Prop :=
  dom (files w) ⊆ dom (files w') /\
  dom (Bucket w) ⊆ dom (Bucket w') /\
  dom (lcache (Cache w)) ⊆ dom (lcache (Cache w')) /\
  (forall l e, heap w !! l = Some e -> heap w' !! l = Some e) /\
  mdir (Cache w') = mdir (Cache w).

(** The operation [c] removes nothing, from whatever world it starts. *)
Definition keeps {A} (c : M A) : Prop := forall w, grows w (snd (c w)).

End Cache.

(** ** The scenario of the specification *)

Module Scenario.

(** Modelled from the spec: the layer entry record ([manifest.Entry], which
    is declared outside the sources at hand), with the two fields that the
    layer scenario of the specification names, the content hash and the
    size. *)
Record LayerEntry : Type := mkEntry {
  hash : string;
  size : Z
}.

Fixpoint strip_prefix (p b : bytes) : option bytes :=
  match p, b with
  | [], _ => Some b
  | x :: p', y :: b' => if Byte.eqb x y then strip_prefix p' b' else None
  | _ :: _, [] => None
  end.

Fixpoint split_at (stop : byte) (b : bytes) : option (bytes * bytes) :=
  match b with
  | [] => None
  | x :: b' =>
      if Byte.eqb x stop then Some ([], b')
      else match split_at stop b' with
           | Some (l, r) => Some (x :: l, r)
           | None => None
           end
  end.

Definition quote : byte := x22.
Definition hash_label : bytes := [x7b; x22; x68; x61; x73; x68; x22; x3a; x22].
Definition size_label : bytes := [x2c; x22; x73; x69; x7a; x65; x22; x3a].

(** A stand-in for [encoding/json] on this record: an object with the
    members [hash] and [size], in this order.  The hash is copied as it
    is, without the escapes that [json.Marshal] writes for quotes,
    backslashes and control characters; it is used below on hashes that
    need none. *)
Definition marshal (e : LayerEntry) : bytes :=
  hash_label ++ String.list_byte_of_string (hash e) ++ [quote] ++ size_label
  ++ String.list_byte_of_string (NilZero.string_of_int (Z.to_int (size e)))
  ++ [x7d].

(** The stand-in for [json.Unmarshal] reads back what [marshal] writes,
    with a size in the range of [int64].  It is stricter than
    [json.Unmarshal], which also accepts members in another order, white
    space and members it does not know (so that the object [x1] below
    decodes to the zero entry); it is used below only on bytes that
    [marshal] wrote and on [truncated], which is not JSON at all. *)
Definition unmarshal (b : bytes) : option LayerEntry :=
  match strip_prefix hash_label b with
  | None => None
  | Some b1 =>
      match split_at quote b1 with
      | None => None
      | Some (h, b2) =>
          match strip_prefix size_label b2 with
          | None => None
          | Some b3 =>
              match split_at x7d b3 with
              | Some (d, []) =>
                  match NilZero.int_of_string (String.string_of_list_byte d) with
                  | Some n =>
                      if (- 2 ^ 63 <=? Z.of_int n)%Z && (Z.of_int n <? 2 ^ 63)%Z
                      then Some (mkEntry (String.string_of_list_byte h)
                                         (Z.of_int n))
                      else None
                  | None => None
                  end
              | _ => None
              end
          end
      end
  end.

#[export] Instance LayerEntry_GoEntry : GoEntry LayerEntry := {|
  zeroEntry := mkEntry "" 0;
  jsonMarshal := marshal;
  jsonUnmarshal := unmarshal
|}.

(** A process that has just built its cache: the backing directory exists,
    nothing is cached locally and the bucket is empty. *)
Definition fresh : World (Entry := LayerEntry) :=
  mkWorld "/tmp" {["/tmp/nixery"]} ∅ (mkLocalCache "/tmp/nixery/" ∅) ∅
          [] [] [] [].

(** The manifest of the scenario: an object with the member x set to 1. *)
Definition x1 : bytes := [x7b; x22; x78; x22; x3a; x31; x7d].

Definition L1 : LayerEntry := mkEntry "deadbeef" 42.

(** An object cut off after its opening brace: [json.Unmarshal] fails on
    it with an unexpected end of the input. *)
Definition truncated : bytes := [x7b].

(** The backing directory can not be written to and the bucket can not be
    reached. *)
Definition unwritable_and_offline : Env := fun c =>
  match c with
  | OsWriteFile _ | ObjCopy _ | ObjClose _ | ObjAttrs _ | ObjNewReader _
  | ObjRead _ => true
  | _ => false
  end.

(** The backing directory can not be written to; the bucket works. *)
Definition unwritable : Env := fun c =>
  match c with
  | OsWriteFile _ => true
  | _ => false
  end.

(** Every call fails. *)
Definition all_fail : Env := fun _ => true.

(** The backing file can not be opened although it exists (its
    permissions, say, do not allow it). *)
Definition open_denied : Env := fun c =>
  match c with
  | OsOpen _ => true
  | _ => false
  end.

(** The backing file is opened and can then not be read. *)
Definition read_denied : Env := fun c =>
  match c with
  | OsReadAll _ => true
  | _ => false
  end.

(** The bucket answers the probe and then fails to serve the object. *)
Definition read_fails : Env := fun c =>
  match c with
  | ObjNewReader _ | ObjRead _ => true
  | _ => false
  end.

(** A process in which the manifest abc is cached on disk. *)
Definition with_manifest : World (Entry := LayerEntry) :=
  set_files {["/tmp/nixery/abc" := x1]} fresh.

(** A process in which the layer L1 is in the layer map. *)
Definition with_layer : World (Entry := LayerEntry) :=
  set_Cache (mkLocalCache "/tmp/nixery/" {["L1" := L1]}) fresh.

(** A process whose bucket holds the manifest abc and, under builds/L1, an
    object that was cut off and is not JSON. *)
Definition with_objects : World (Entry := LayerEntry) :=
  set_Bucket {["manifests/abc" := x1; "builds/L1" := truncated]} fresh.

(** A process whose bucket holds the layer L1, stored by another one. *)
Definition with_layer_object : World (Entry := LayerEntry) :=
  set_Bucket {["builds/L1" := marshal L1]} fresh.

(** A process that has not built a cache yet, started where an earlier one
    left the manifest abc on disk. *)
Definition boot_with_manifest : World (Entry := LayerEntry) :=
  mkWorld "/tmp" {["/tmp"; "/tmp/nixery"]} {["/tmp/nixery/abc" := x1]}
          (mkLocalCache "" ∅) ∅ [] [] [] [].

(** A process that has not built a cache yet. *)
Definition boot : World (Entry := LayerEntry) :=
  mkWorld "/tmp" {["/tmp"]} ∅ (mkLocalCache "" ∅) ∅ [] [] [] [].

End Scenario.

(** * Properties *)

Section Properties.

Context {Entry : Type} `{!GoEntry Entry}.

Implicit Types (w : World (Entry := Entry)) (env : Env) (key : string).

(** Unfolds an operation down to the state transformer it stands for. *)
Ltac unfold_ops :=
  unfold manifestFromCache, cacheManifest, layerFromCache, cacheLayer,
    manifestFromLocalCache, localCacheManifest, layerFromLocalCache,
    localCacheLayer, NewCache, os_MkdirAll, os_Open, file_ReadAll,
    ioutil_WriteFile, obj_Attrs, obj_NewReader, obj_ReadAll, io_Copy,
    writer_Close, new, spawn, logf, call, modify, get, bind, ret.

(** Runs an operation by cases on what the environment and the stores
    answer, using first the answers that are known. *)
Ltac use_known :=
  match goal with
  | H : ?t = _ |- context [match ?t with _ => _ end] => rewrite H
  end.

Ltac crunch :=
  unfold_ops; cbn; repeat (first [use_known | case_match]; simplify_eq/=).

(** The calls made since [calls w] contain no [ioutil.WriteFile]. *)
Ltac no_write :=
  let Hin := fresh "Hin" in
  intros ? Hin; rewrite ?elem_of_app, ?elem_of_cons, ?elem_of_nil in Hin;
  destruct_or!; by simplify_eq.

(** The local manifest lookup reads: it leaves the files, the cache, the
    bucket and the goroutines as they are and calls nothing but [os.Open]
    and [ioutil.ReadAll] on the backing file. *)
Lemma manifestFromLocalCache_frame env key w :
  let w' := snd (manifestFromLocalCache env key w) in
  let path := mdir (Cache w) +:+ key in
  files w' = files w /\ Cache w' = Cache w /\ Bucket w' = Bucket w /\
  heap w' = heap w /\ goroutines w' = goroutines w /\
  (calls w' = calls w ++ [OsOpen path] \/
   calls w' = calls w ++ [OsOpen path; OsReadAll path]).
Proof.
  crunch; rewrite <- ?app_assoc; auto 10.
Qed.

(** A local manifest hit returns the content of the backing file. *)
Lemma manifestFromLocalCache_hit env key w :
  snd (fst (manifestFromLocalCache env key w)) = true ->
  exists m,
    files w !! (mdir (Cache w) +:+ key) = Some m /\
    manifestFromLocalCache env key w =
      (Some m, true,
       set_calls (calls w ++ [OsOpen (mdir (Cache w) +:+ key);
                              OsReadAll (mdir (Cache w) +:+ key)]) w).
Proof.
  crunch; intros; simplify_eq.
  eexists; split; [done|].
  unfold set_calls; cbn. by rewrite <- app_assoc.
Qed.

(** The local layer lookup: the stored entry, or the zero value, is copied
    into a new heap cell; nothing else changes and nothing is called. *)
Lemma layerFromLocalCache_eq key w :
  layerFromLocalCache key w =
    (Some (length (heap w)), bool_decide (is_Some (lcache (Cache w) !! key)),
     set_heap (heap w ++ [default zeroEntry (lcache (Cache w) !! key)]) w).
Proof. unfold_ops. by destruct (lcache (Cache w) !! key). Qed.

Lemma lookup_new_cell (h : list Entry) (e : Entry) :
  (h ++ [e]) !! length h = Some e.
Proof. by rewrite lookup_app_r, Nat.sub_diag. Qed.

Lemma lookup_new_cell' {A} (h t : list A) (a : A) :
  (h ++ a :: t) !! length h = Some a.
Proof. by rewrite lookup_app_r, Nat.sub_diag. Qed.

Lemma bind_run {S A B} (c : StateM S A) (k : A -> StateM S B) (w : S) :
  bind c k w = k (fst (c w)) (snd (c w)).
Proof. unfold bind. by destruct (c w). Qed.

(** What the local manifest lookup returns. *)
Lemma manifestFromLocalCache_result env key w :
  let path := mdir (Cache w) +:+ key in
  fst (manifestFromLocalCache env key w) =
    if env (OsOpen path) then (None, false)
    else match files w !! path with
         | None => (None, false)
         | Some m => if env (OsReadAll path) then (None, false)
                     else (Some m, true)
         end.
Proof. by crunch. Qed.

(** What [manifestFromCache] returns: the local hit, or else the object
    when the probe, the reader and the read succeed. *)
Lemma manifestFromCache_result env key w :
  let name := "manifests/" +:+ key in
  let r := fst (manifestFromLocalCache env key w) in
  fst (manifestFromCache env key w) =
    if snd r then (fst r, true)
    else if env (ObjAttrs name) then (None, false)
    else match Bucket w !! name with
         | None => (None, false)
         | Some m => if env (ObjNewReader name) || env (ObjRead name)
                     then (None, false) else (Some m, true)
         end.
Proof.
  cbn zeta. unfold manifestFromCache. rewrite bind_run.
  destruct (manifestFromLocalCache_frame env key w) as (_ & _ & Hb & _).
  destruct (manifestFromLocalCache env key w) as [[m c] w1]; cbn in *.
  destruct c; [done|]. rewrite <- Hb. by crunch.
Qed.

(** [manifestFromCache] itself writes neither a file nor the layer map
    nor the bucket, and it starts a goroutine only when it reports
    [true]. *)
Lemma manifestFromCache_frame env key w :
  let r := manifestFromCache env key w in
  files (snd r) = files w /\ Cache (snd r) = Cache w /\
  Bucket (snd r) = Bucket w /\
  (snd (fst r) = false -> goroutines (snd r) = goroutines w) /\
  (forall path, OsWriteFile path ∈ calls (snd r) -> OsWriteFile path ∈ calls w).
Proof.
  cbn zeta. unfold manifestFromCache. rewrite bind_run.
  destruct (manifestFromLocalCache_frame env key w)
    as (Hf & Hc & Hb & _ & Hg & Hcalls).
  destruct (manifestFromLocalCache env key w) as [[m c] w1]; cbn in *.
  rewrite <- Hf, <- Hc, <- Hb, <- Hg.
  assert (Hw1 : forall path,
    OsWriteFile path ∈ calls w1 -> OsWriteFile path ∈ calls w).
  { destruct Hcalls as [-> | ->]; no_write. }
  clear Hf Hc Hb Hg Hcalls.
  destruct c; [done|].
  crunch; (repeat split; [done..|]); intros path Hin; apply Hw1;
    revert path Hin; no_write.
Qed.

(** What [layerFromCache] returns when the key is not in the layer map, and
    what it leaves untouched when it then reports [false]. *)
Lemma layerFromCache_local_miss env key w :
  let name := "builds/" +:+ key in
  let r := layerFromCache env key w in
  lcache (Cache w) !! key = None ->
  fst r =
    (if env (ObjAttrs name) then (None, false)
     else match Bucket w !! name with
          | None => (None, false)
          | Some jb =>
              if env (ObjNewReader name) || env (ObjRead name)
              then (None, false)
              else match jsonUnmarshal jb with
                   | None => (None, false)
                   | Some _ => (Some (S (length (heap w))), true)
                   end
          end) /\
  files (snd r) = files w /\
  calls (snd r) !! length (calls w) = Some (ObjAttrs name) /\
  (forall path, OsWriteFile path ∈ calls (snd r) -> OsWriteFile path ∈ calls w) /\
  (snd (fst r) = false ->
   Cache (snd r) = Cache w /\ goroutines (snd r) = goroutines w).
Proof.
  cbn zeta. intros Hmiss. unfold layerFromCache. rewrite bind_run.
  rewrite layerFromLocalCache_eq, Hmiss; cbn.
  crunch; rewrite ?length_app, ?Nat.add_1_r;
    (repeat apply conj; try done);
    try (by rewrite <- ?app_assoc; apply lookup_new_cell');
    no_write.
Qed.

(** What [cacheManifest] leaves behind: the goroutine for the file, and
    the object when the copy and the close succeed. *)
Lemma cacheManifest_world env key (m : bytes) w :
  let name := "manifests/" +:+ key in
  let w' := snd (cacheManifest env key m w) in
  files w' = files w /\ Cache w' = Cache w /\
  goroutines w' = goroutines w ++ [GoLocalCacheManifest key m] /\
  Bucket w' = (if env (ObjCopy name) || env (ObjClose name) then Bucket w
               else <[name := m]> (Bucket w)).
Proof. by crunch. Qed.

(** What [localCacheManifest] leaves behind when the write succeeds. *)
Lemma localCacheManifest_world env key (m : bytes) w :
  let path := mdir (Cache w) +:+ key in
  let w' := snd (localCacheManifest env key m w) in
  Cache w' = Cache w /\ Bucket w' = Bucket w /\
  goroutines w' = goroutines w /\
  (env (OsWriteFile path) = false -> files w' = <[path := m]> (files w)).
Proof. by crunch. Qed.

(** Waiting for a single goroutine runs it. *)
Lemma await_single env g w :
  goroutines w = [g] ->
  snd (await env w) = snd (run_goroutine env g (set_goroutines [] w)).
Proof.
  intros Hg. unfold await, bind at 1 2, get, modify; cbn. rewrite Hg; cbn.
  by rewrite bind_run.
Qed.

(** C4. When the local store reports a hit, [manifestFromCache] and
    [layerFromCache] return the locally cached value and do nothing on the
    bucket: for a manifest the only calls made are the [os.Open] and the
    [ioutil.ReadAll] of the backing file, for a layer no call is made at
    all, and in both cases the files, the layer map, the bucket and the
    goroutines are as before (for a layer the world differs only by the
    heap cell of the returned copy). *)
Theorem local_hit_skips_bucket env key w :
  (snd (fst (manifestFromLocalCache env key w)) = true ->
   exists m,
     files w !! (mdir (Cache w) +:+ key) = Some m /\
     manifestFromCache env key w =
       (Some m, true,
        set_calls (calls w ++ [OsOpen (mdir (Cache w) +:+ key);
                               OsReadAll (mdir (Cache w) +:+ key)]) w))
  /\
  (snd (fst (layerFromLocalCache key w)) = true ->
   exists e,
     lcache (Cache w) !! key = Some e /\
     layerFromCache env key w =
       (Some (length (heap w)), true, set_heap (heap w ++ [e]) w) /\
     deref (snd (layerFromCache env key w)) (Some (length (heap w))) = Some e).
Proof.
  split.
  - intros Hhit.
    destruct (manifestFromLocalCache_hit env key w Hhit) as (m & Hm & Heq).
    exists m. split; [done|].
    unfold manifestFromCache, bind. by rewrite Heq.
  - rewrite layerFromLocalCache_eq; cbn. intros Hhit.
    apply bool_decide_eq_true in Hhit as [e He]. exists e.
    assert (Heq : layerFromCache env key w =
      (Some (length (heap w)), true, set_heap (heap w ++ [e]) w)).
    { unfold layerFromCache, bind. by rewrite layerFromLocalCache_eq, He. }
    rewrite Heq; cbn. auto using lookup_new_cell.
Qed.

(** C10. For a key that is not in the layer map, [layerFromLocalCache]
    reports [false] and returns a pointer that is not nil: it points to a
    new cell holding the zero entry. *)
Theorem layerFromLocalCache_miss_zero key w :
  lcache (Cache w) !! key = None ->
  exists l,
    fst (layerFromLocalCache key w) = (Some l, false) /\
    deref (snd (layerFromLocalCache key w)) (Some l) = Some zeroEntry.
Proof.
  intros Hnone. exists (length (heap w)).
  rewrite layerFromLocalCache_eq, Hnone; cbn.
  split; [done | apply lookup_new_cell].
Qed.

(** C9. The pointer that [layerFromLocalCache] returns refers to a copy
    of the stored entry: the cell it points to holds the entry stored
    under the key (the zero entry when there is none); assigning any
    entry [v] through it changes that cell, not the layer map, and a
    later lookup of the same key reports the same [found] and the same
    entry as the first one did, which for a key in the map is the stored
    entry and not [v]. *)
Theorem layerFromLocalCache_returns_copy key w (v : Entry) :
  let r := layerFromLocalCache key w in
  let w2 := assign (fst (fst r)) v (snd r) in
  let r' := layerFromLocalCache key w2 in
  deref w2 (fst (fst r)) = Some v /\
  lcache (Cache w2) = lcache (Cache w) /\
  snd (fst r') = snd (fst r) /\
  deref (snd r') (fst (fst r')) = deref (snd r) (fst (fst r)) /\
  deref (snd r) (fst (fst r)) =
    Some (default zeroEntry (lcache (Cache w) !! key)) /\
  fst (fst r') <> fst (fst r) /\
  (forall e, lcache (Cache w) !! key = Some e ->
     snd (fst r) = true /\
     deref (snd r) (fst (fst r)) = Some e /\
     lcache (Cache w2) !! key = Some e /\
     snd (fst r') = true /\
     deref (snd r') (fst (fst r')) = Some e).
Proof.
  cbn zeta. rewrite !layerFromLocalCache_eq; cbn.
  rewrite !lookup_new_cell, !length_insert, !length_app; cbn.
  repeat apply conj; try done.
  - apply list_lookup_insert_eq. rewrite length_app; cbn. lia.
  - intros [=]. lia.
  - intros e He. by rewrite He.
Qed.

(** C5. After [cacheLayer] has stored an entry under a key, whatever
    happened to its write to the bucket, [layerFromCache] finds the key and
    returns a pointer, not nil, to an entry equal to the one stored. *)
Theorem cacheLayer_then_layerFromCache env1 env2 key (e : Entry) w :
  let w1 := snd (cacheLayer env1 key e w) in
  let r := layerFromCache env2 key w1 in
  snd (fst r) = true /\
  fst (fst r) = Some (length (heap w1)) /\
  deref (snd r) (fst (fst r)) = Some e.
Proof.
  cbn zeta.
  assert (Hl : lcache (Cache (snd (cacheLayer env1 key e w))) !! key = Some e).
  { crunch; apply lookup_insert_eq. }
  unfold layerFromCache, bind.
  rewrite layerFromLocalCache_eq, Hl; cbn.
  auto using lookup_new_cell.
Qed.

(** C7. [cacheLayer] puts the entry into the layer map, marshals it and
    writes the bytes to the object builds/key of the bucket.  When the copy
    or the close of the writer fails, the bucket stays as it was and one
    entry of level [Error] is logged; otherwise the object holds the
    marshalled entry and nothing is logged.  In all cases the operation
    returns. *)
Theorem cacheLayer_writes_bucket env key (e : Entry) w :
  let name := "builds/" +:+ key in
  let w' := snd (cacheLayer env key e w) in
  let failed := env (ObjCopy name) || env (ObjClose name) in
  lcache (Cache w') = <[key := e]> (lcache (Cache w)) /\
  Bucket w' =
    (if failed then Bucket w else <[name := jsonMarshal e]> (Bucket w)) /\
  logs w' =
    (if failed
     then logs w ++ [mkLog Error (Some (ErrFailed name)) [("layer", FStr key)]
                           "failed to cache layer"]
     else logs w) /\
  files w' = files w /\ goroutines w' = goroutines w.
Proof.
  cbn zeta. crunch; auto.
Qed.

(** C3. A lookup that misses locally and finds the object in the bucket,
    but then fails to open the reader, to read it or (for a layer) to
    unmarshal what it read, reports not found with a nil result; it starts
    no goroutine and leaves the files and the layer map untouched, and it
    never calls [ioutil.WriteFile]. *)
Theorem failed_bucket_read_writes_nothing env key w (b : bytes) :
  (let name := "manifests/" +:+ key in
   let r := manifestFromCache env key w in
   snd (fst (manifestFromLocalCache env key w)) = false ->
   env (ObjAttrs name) = false -> Bucket w !! name = Some b ->
   env (ObjNewReader name) = true \/ env (ObjRead name) = true ->
   fst r = (None, false) /\
   files (snd r) = files w /\ Cache (snd r) = Cache w /\
   goroutines (snd r) = goroutines w /\
   forall path, OsWriteFile path ∈ calls (snd r) -> OsWriteFile path ∈ calls w)
  /\
  (let name := "builds/" +:+ key in
   let r := layerFromCache env key w in
   snd (fst (layerFromLocalCache key w)) = false ->
   env (ObjAttrs name) = false -> Bucket w !! name = Some b ->
   env (ObjNewReader name) = true \/ env (ObjRead name) = true \/
     jsonUnmarshal b = None ->
   fst r = (None, false) /\
   files (snd r) = files w /\ Cache (snd r) = Cache w /\
   goroutines (snd r) = goroutines w /\
   calls (snd r) !! length (calls w) = Some (ObjAttrs name) /\
   forall path, OsWriteFile path ∈ calls (snd r) -> OsWriteFile path ∈ calls w).
Proof.
  split; cbn zeta.
  - intros Hmiss Hattrs Hobj Hfail.
    assert (Hres : fst (manifestFromCache env key w) = (None, false)).
    { rewrite manifestFromCache_result, Hmiss, Hattrs, Hobj.
      by destruct Hfail as [-> | ->]; rewrite ?orb_true_r. }
    destruct (manifestFromCache_frame env key w) as (? & ? & _ & Hg & ?).
    rewrite Hres in Hg. auto 10.
  - rewrite layerFromLocalCache_eq; cbn.
    intros Hmiss Hattrs Hobj Hfail.
    assert (Hnone : lcache (Cache w) !! key = None).
    { destruct (lcache (Cache w) !! key); [done|done]. }
    destruct (layerFromCache_local_miss env key w Hnone)
      as (Hres & ? & ? & ? & Hframe).
    rewrite Hattrs, Hobj in Hres.
    assert (Hres' : fst (layerFromCache env key w) = (None, false)).
    { rewrite Hres. by destruct Hfail as [-> | [-> | ->]];
        rewrite ?orb_true_r; try case_match. }
    rewrite Hres' in Hframe. destruct Hframe; auto 10.
Qed.

(** C2. No failure inside the four operations reaches the caller, whose
    result types have no place for one.  On the read side a failure is a
    miss: a local read that fails is a local miss, and after a local miss a
    failing probe, reader, read or unmarshal gives the nil result and
    [false].  On the write side a failure is logged at level [Error] and
    the operation returns: the write of a manifest or of a layer to the
    bucket, and the write of the manifest file.  [NewCache] returns an
    error exactly when [os.MkdirAll] fails. *)
Theorem cache_errors_do_not_propagate env key (m : bytes) (e : Entry) w :
  let path := mdir (Cache w) +:+ key in
  let mname := "manifests/" +:+ key in
  let lname := "builds/" +:+ key in
  (env (OsOpen path) = true \/ files w !! path = None \/
     env (OsReadAll path) = true ->
   fst (manifestFromLocalCache env key w) = (None, false))
  /\
  (snd (fst (manifestFromLocalCache env key w)) = false ->
   env (ObjAttrs mname) = true \/ Bucket w !! mname = None \/
     env (ObjNewReader mname) = true \/ env (ObjRead mname) = true ->
   fst (manifestFromCache env key w) = (None, false))
  /\
  (lcache (Cache w) !! key = None ->
   env (ObjAttrs lname) = true \/ Bucket w !! lname = None \/
     env (ObjNewReader lname) = true \/ env (ObjRead lname) = true \/
     (exists b, Bucket w !! lname = Some b /\ jsonUnmarshal b = None) ->
   fst (layerFromCache env key w) = (None, false))
  /\
  (env (ObjCopy mname) = true \/ env (ObjClose mname) = true ->
   logs (snd (cacheManifest env key m w)) =
     logs w ++ [mkLog Error (Some (ErrFailed mname)) [("manifest", FStr key)]
                      "failed to cache manifest to GCS"])
  /\
  (env (OsWriteFile path) = true ->
   logs (snd (localCacheManifest env key m w)) =
     logs w ++ [mkLog Error (Some (ErrFailed path)) [("manifest", FStr key)]
                      "failed to locally cache manifest"])
  /\
  (env (ObjCopy lname) = true \/ env (ObjClose lname) = true ->
   logs (snd (cacheLayer env key e w)) =
     logs w ++ [mkLog Error (Some (ErrFailed lname)) [("layer", FStr key)]
                      "failed to cache layer"])
  /\
  snd (fst (NewCache env w)) =
    (if env (OsMkdirAll (tempDir w +:+ "/nixery"))
     then Some (ErrFailed (tempDir w +:+ "/nixery")) else None).
Proof.
  cbn zeta. repeat apply conj.
  - intros Hfail. rewrite manifestFromLocalCache_result.
    destruct Hfail as [-> | [-> | ->]]; by repeat case_match.
  - intros Hmiss Hfail. rewrite manifestFromCache_result, Hmiss.
    destruct Hfail as [-> | [-> | [-> | ->]]];
      rewrite ?orb_true_r; by repeat case_match.
  - intros Hmiss Hfail.
    destruct (layerFromCache_local_miss env key w Hmiss) as [-> _].
    destruct Hfail as [-> | [-> | [-> | [-> | (b & -> & ->)]]]];
      rewrite ?orb_true_r; by repeat case_match.
  - intros [Hfail | Hfail]; by crunch.
  - intros Hfail. by crunch.
  - intros [Hfail | Hfail]; by crunch.
  - by crunch.
Qed.

(** C6, as the code has it.  [manifestFromLocalCache] reports not found
    with a nil result whenever the backing file can not be opened, be it
    absent or not, and whenever reading the opened file fails.  Every
    failure to open, absence included, is logged at level [Debug]; a
    failure to read the opened file is logged at level [Error]; a hit logs
    nothing. *)
Theorem manifestFromLocalCache_levels env key w :
  let path := mdir (Cache w) +:+ key in
  let r := manifestFromLocalCache env key w in
  (env (OsOpen path) = true \/ files w !! path = None ->
   fst r = (None, false) /\
   exists err,
     logs (snd r) =
       logs w ++ [mkLog Debug (Some err) [("manifest", FStr key)]
                        "failed to read manifest from local cache"])
  /\
  (env (OsOpen path) = false -> is_Some (files w !! path) ->
   env (OsReadAll path) = true ->
   fst r = (None, false) /\
   logs (snd r) =
     logs w ++ [mkLog Error (Some (ErrFailed path)) [("manifest", FStr key)]
                      "failed to read manifest from local cache"])
  /\
  (forall m, env (OsOpen path) = false -> files w !! path = Some m ->
   env (OsReadAll path) = false ->
   fst r = (Some m, true) /\ logs (snd r) = logs w).
Proof.
  cbn zeta. repeat apply conj.
  - intros Hfail. destruct_or!; crunch; eauto.
  - intros Hopen [m Hm] Hread. by crunch.
  - intros m Hopen Hm Hread. by crunch.
Qed.

(** C8, as the code has it.  A successful [NewCache] has made sure that
    the directory nixery under the temporary directory exists, and returns
    a cache with an empty layer map whose manifests live in that
    directory.  The directory depends on the temporary directory alone:
    every later successful [NewCache] returns the same one. *)
Theorem NewCache_backing_directory env w :
  let r := NewCache env w in
  snd (fst r) = None ->
  (tempDir w +:+ "/nixery") ∈ dirs (snd r) /\
  mdir (fst (fst r)) = (tempDir w +:+ "/nixery") +:+ "/" /\
  lcache (fst (fst r)) = ∅ /\
  forall env', snd (fst (NewCache env' (snd r))) = None ->
    mdir (fst (fst (NewCache env' (snd r)))) = mdir (fst (fst r)).
Proof.
  cbn zeta. crunch; intros; try done.
  split; [set_solver|]. repeat split. intros env'.
  crunch; by intros.
Qed.

(** C1, as the code has it.  On a cache that holds nothing for a key,
    neither the file nor the object, [manifestFromCache] returns the nil
    result and [false].  After [cacheManifest] and the goroutine it
    started have run (no other goroutine being in flight),
    [manifestFromCache] returns the payload stored and [true] when the
    write of the file succeeded and the file can be opened and read; and,
    when the local lookup misses, also when the write to the bucket
    succeeded and the probe, the reader and the read do. *)
Theorem cacheManifest_then_manifestFromCache env1 env2 env3 key (p : bytes) w :
  let path := mdir (Cache w) +:+ key in
  let name := "manifests/" +:+ key in
  let w2 := snd (await env2 (snd (cacheManifest env1 key p w))) in
  goroutines w = [] ->
  (files w !! path = None -> Bucket w !! name = None ->
   fst (manifestFromCache env3 key w) = (None, false))
  /\
  (env2 (OsWriteFile path) = false ->
   env3 (OsOpen path) = false -> env3 (OsReadAll path) = false ->
   fst (manifestFromCache env3 key w2) = (Some p, true))
  /\
  (snd (fst (manifestFromLocalCache env3 key w2)) = false ->
   env1 (ObjCopy name) = false -> env1 (ObjClose name) = false ->
   env3 (ObjAttrs name) = false -> env3 (ObjNewReader name) = false ->
   env3 (ObjRead name) = false ->
   fst (manifestFromCache env3 key w2) = (Some p, true)).
Proof.
  cbn zeta. intros Hgo.
  destruct (cacheManifest_world env1 key p w) as (Hf1 & Hc1 & Hg1 & Hb1).
  rewrite Hgo, app_nil_l in Hg1.
  rewrite (await_single env2 _ _ Hg1). unfold run_goroutine.
  set (w0 := snd (cacheManifest env1 key p w)) in *.
  set (w1 := set_goroutines [] w0).
  assert (Hf1' : files w1 = files w) by done.
  assert (Hc1' : Cache w1 = Cache w) by done.
  assert (Hb1' : Bucket w1 = Bucket w0) by done.
  destruct (localCacheManifest_world env2 key p w1) as (Hc2 & Hb2 & _ & Hf2).
  set (w2 := snd (localCacheManifest env2 key p w1)) in *.
  rewrite Hc1' in Hc2, Hf2. rewrite Hf1' in Hf2. rewrite Hb1', Hb1 in Hb2.
  clearbody w2. clear w0 w1 Hf1 Hc1 Hg1 Hb1 Hf1' Hc1' Hb1'.
  repeat apply conj.
  - intros Hfile Hobj.
    rewrite manifestFromCache_result, manifestFromLocalCache_result.
    rewrite Hfile, Hobj. by repeat case_match.
  - intros Hwrite Hopen Hread.
    rewrite manifestFromCache_result, manifestFromLocalCache_result.
    rewrite Hc2, Hopen, Hread, (Hf2 Hwrite), lookup_insert_eq. done.
  - intros Hmiss Hcopy Hclose Hattrs Hreader Hread.
    rewrite manifestFromCache_result, Hmiss, Hattrs, Hreader, Hread.
    rewrite Hb2, Hcopy, Hclose; cbn. by rewrite lookup_insert_eq.
Qed.

(** ** Further properties of the operations *)

(** [manifestFromCache] on a local hit, with the world it leaves. *)
Lemma manifestFromCache_local_hit env key w :
  snd (fst (manifestFromLocalCache env key w)) = true ->
  exists m,
    files w !! (mdir (Cache w) +:+ key) = Some m /\
    manifestFromCache env key w =
      (Some m, true,
       set_calls (calls w ++ [OsOpen (mdir (Cache w) +:+ key);
                              OsReadAll (mdir (Cache w) +:+ key)]) w).
Proof.
  intros Hhit.
  destruct (manifestFromLocalCache_hit env key w Hhit) as (m & Hm & Heq).
  exists m. split; [done|].
  unfold manifestFromCache, bind. by rewrite Heq.
Qed.

(** [manifestFromCache] when only the bucket has the manifest: the
    goroutine it starts carries the payload it returns. *)
Lemma manifestFromCache_bucket_hit env key (m : bytes) w :
  let name := "manifests/" +:+ key in
  let r := manifestFromCache env key w in
  snd (fst (manifestFromLocalCache env key w)) = false ->
  env (ObjAttrs name) = false -> Bucket w !! name = Some m ->
  env (ObjNewReader name) = false -> env (ObjRead name) = false ->
  fst r = (Some m, true) /\
  goroutines (snd r) = goroutines w ++ [GoLocalCacheManifest key m].
Proof.
  cbn zeta. intros Hmiss Hattrs Hobj Hreader Hread.
  unfold manifestFromCache. rewrite bind_run.
  destruct (manifestFromLocalCache_frame env key w)
    as (_ & _ & Hb & _ & Hg & _).
  destruct (manifestFromLocalCache env key w) as [[m0 c] w1]; cbn in *.
  subst c. rewrite <- Hb in Hobj. rewrite <- Hg. by crunch.
Qed.

(** [layerFromCache] when only the bucket has the layer: the entry read
    is put into a new cell, and a goroutine is started to put it into the
    layer map. *)
Lemma layerFromCache_bucket_hit env key (jb : bytes) (e : Entry) w :
  let name := "builds/" +:+ key in
  let r := layerFromCache env key w in
  lcache (Cache w) !! key = None ->
  env (ObjAttrs name) = false -> Bucket w !! name = Some jb ->
  env (ObjNewReader name) = false -> env (ObjRead name) = false ->
  jsonUnmarshal jb = Some e ->
  fst r = (Some (S (length (heap w))), true) /\
  deref (snd r) (Some (S (length (heap w)))) = Some e /\
  goroutines (snd r) = goroutines w ++ [GoLocalCacheLayer key e] /\
  Cache (snd r) = Cache w /\ Bucket (snd r) = Bucket w /\
  files (snd r) = files w.
Proof.
  cbn zeta. intros Hmiss Hattrs Hobj Hreader Hread Hjson.
  unfold layerFromCache. rewrite bind_run.
  rewrite layerFromLocalCache_eq, Hmiss; cbn.
  crunch; rewrite ?length_app, ?Nat.add_1_r; repeat apply conj; try done.
  rewrite lookup_app_r; rewrite length_app, Nat.add_1_r; [|lia].
  by rewrite Nat.sub_diag.
Qed.

(** X1. Write-back of a manifest.  When only the bucket has the manifest
    and serves it, [manifestFromCache] returns it without having written
    the backing file; once the goroutine it started has run and its write
    succeeded, the backing file holds the payload, and a later
    [manifestFromCache] that can open and read the file returns the same
    payload from it, calling nothing on the bucket. *)
Theorem manifest_write_back env1 env2 env3 key (m : bytes) w :
  let path := mdir (Cache w) +:+ key in
  let name := "manifests/" +:+ key in
  let r := manifestFromCache env1 key w in
  let w2 := snd (await env2 (snd r)) in
  goroutines w = [] ->
  snd (fst (manifestFromLocalCache env1 key w)) = false ->
  env1 (ObjAttrs name) = false -> Bucket w !! name = Some m ->
  env1 (ObjNewReader name) = false -> env1 (ObjRead name) = false ->
  env2 (OsWriteFile path) = false ->
  env3 (OsOpen path) = false -> env3 (OsReadAll path) = false ->
  fst r = (Some m, true) /\
  files (snd r) = files w /\
  files w2 = <[path := m]> (files w) /\
  manifestFromCache env3 key w2 =
    (Some m, true, set_calls (calls w2 ++ [OsOpen path; OsReadAll path]) w2).
Proof.
  cbn zeta. intros Hgo Hmiss Hattrs Hobj Hreader Hread Hwrite Hopen Hrd.
  destruct (manifestFromCache_bucket_hit env1 key m w) as (Hres & Hg); [done..|].
  destruct (manifestFromCache_frame env1 key w) as (Hf & Hc & _).
  rewrite Hgo, app_nil_l in Hg.
  rewrite (await_single env2 _ _ Hg). unfold run_goroutine.
  set (w0 := snd (manifestFromCache env1 key w)) in *.
  set (w1 := set_goroutines [] w0).
  assert (Hf1 : files w1 = files w) by done.
  assert (Hc1 : Cache w1 = Cache w) by done.
  destruct (localCacheManifest_world env2 key m w1) as (Hc2 & _ & _ & Hf2).
  set (w2 := snd (localCacheManifest env2 key m w1)) in *.
  rewrite Hc1 in Hc2, Hf2. rewrite Hf1 in Hf2. specialize (Hf2 Hwrite).
  clearbody w2. repeat apply conj; [done..|].
  assert (Hhit : snd (fst (manifestFromLocalCache env3 key w2)) = true).
  { rewrite manifestFromLocalCache_result, Hc2, Hopen, Hrd, Hf2.
    by rewrite lookup_insert_eq. }
  destruct (manifestFromCache_local_hit env3 key w2 Hhit) as (m' & Hm' & ->).
  rewrite Hc2, Hf2, lookup_insert_eq in Hm'. simplify_eq. by rewrite Hc2.
Qed.

(** X2. Write-back of a layer.  When only the bucket has the layer and
    serves an object that unmarshals, [layerFromCache] returns the entry
    without having touched the layer map; once the goroutine it started
    has run, the layer map holds the entry under the key, and a later
    [layerFromCache] returns it without any call, whatever the
    environment. *)
Theorem layer_write_back env1 env2 env3 key (jb : bytes) (e : Entry) w :
  let name := "builds/" +:+ key in
  let r := layerFromCache env1 key w in
  let w2 := snd (await env2 (snd r)) in
  let r' := layerFromCache env3 key w2 in
  goroutines w = [] ->
  lcache (Cache w) !! key = None ->
  env1 (ObjAttrs name) = false -> Bucket w !! name = Some jb ->
  env1 (ObjNewReader name) = false -> env1 (ObjRead name) = false ->
  jsonUnmarshal jb = Some e ->
  snd (fst r) = true /\ deref (snd r) (fst (fst r)) = Some e /\
  lcache (Cache (snd r)) = lcache (Cache w) /\
  lcache (Cache w2) = <[key := e]> (lcache (Cache w)) /\
  snd (fst r') = true /\ deref (snd r') (fst (fst r')) = Some e /\
  calls (snd r') = calls w2.
Proof.
  cbn zeta. intros Hgo Hmiss Hattrs Hobj Hreader Hread Hjson.
  destruct (layerFromCache_bucket_hit env1 key jb e w)
    as (Hres & Hderef & Hg & Hc & _); [done..|].
  rewrite Hgo, app_nil_l in Hg.
  rewrite (await_single env2 _ _ Hg). unfold run_goroutine.
  rewrite Hres; cbn [fst snd]. rewrite Hc.
  set (w0 := snd (layerFromCache env1 key w)) in *.
  assert (Hl : lcache (Cache (snd (localCacheLayer key e (set_goroutines [] w0))))
               = <[key := e]> (lcache (Cache w))).
  { unfold_ops; cbn. by rewrite Hc. }
  set (w2 := snd (localCacheLayer key e (set_goroutines [] w0))) in *.
  clearbody w2. repeat apply conj; [done..| | |];
    unfold layerFromCache; rewrite bind_run, layerFromLocalCache_eq, Hl;
    rewrite lookup_insert_eq; cbn; auto using lookup_new_cell.
Qed.

(** ** Nothing is evicted *)

Lemma grows_refl w : grows w w.
Proof. by unfold grows. Qed.

Lemma grows_trans w1 w2 w3 : grows w1 w2 -> grows w2 w3 -> grows w1 w3.
Proof.
  unfold grows. intros (? & ? & ? & ? & ?) (? & ? & ? & ? & ?).
  repeat apply conj; [set_solver.. | auto | congruence].
Qed.

Lemma keeps_ret {A} (a : A) : keeps (Entry := Entry) (ret a).
Proof. intros w. apply grows_refl. Qed.

Lemma keeps_bind {A B} (c : M (Entry := Entry) A) (k : A -> M B) :
  keeps c -> (forall a, keeps (k a)) -> keeps (bind c k).
Proof.
  intros Hc Hk w. rewrite bind_run.
  eapply grows_trans; [apply Hc | apply Hk].
Qed.

Lemma keeps_get : keeps (Entry := Entry) get.
Proof. intros w. apply grows_refl. Qed.

Lemma keeps_call env c : keeps (Entry := Entry) (call env c).
Proof. intros w. by unfold grows. Qed.

Lemma keeps_logf l err fs msg : keeps (Entry := Entry) (logf l err fs msg).
Proof. intros w. by unfold grows. Qed.

Lemma keeps_spawn g : keeps (Entry := Entry) (spawn g).
Proof. intros w. by unfold grows. Qed.

Lemma keeps_new (e : Entry) : keeps (Entry := Entry) (new e).
Proof.
  intros w. unfold grows; cbn. repeat apply conj; try done.
  intros l e' Hl. by apply lookup_app_l_Some.
Qed.

Lemma keeps_set_dirs (f : World -> gset string) :
  keeps (Entry := Entry) (modify (fun w => set_dirs (f w) w)).
Proof. intros w. by unfold grows. Qed.

Lemma keeps_write_file path (data : bytes) :
  keeps (Entry := Entry) (modify (fun w => set_files (<[path := data]> (files w)) w)).
Proof.
  intros w. unfold grows; cbn. repeat apply conj; try done.
  apply dom_insert_subseteq.
Qed.

Lemma keeps_write_object name (data : bytes) :
  keeps (Entry := Entry) (modify (fun w => set_Bucket (<[name := data]> (Bucket w)) w)).
Proof.
  intros w. unfold grows; cbn. repeat apply conj; try done.
  apply dom_insert_subseteq.
Qed.

Lemma keeps_localCacheLayer key (e : Entry) : keeps (Entry := Entry) (localCacheLayer key e).
Proof.
  intros w. unfold grows; cbn. repeat apply conj; try done.
  apply dom_insert_subseteq.
Qed.

(** Goes through an operation call by call. *)
Ltac keeps_steps :=
  repeat first
    [ apply keeps_ret | apply keeps_get | apply keeps_call | apply keeps_logf
    | apply keeps_spawn | apply keeps_new | apply keeps_localCacheLayer
    | apply keeps_write_file | apply keeps_write_object
    | apply (keeps_set_dirs (fun w => _ ∪ dirs w))
    | apply keeps_bind; [|intros ?]
    | case_match ].

Lemma keeps_os_MkdirAll env path : keeps (Entry := Entry) (os_MkdirAll env path).
Proof. unfold os_MkdirAll. keeps_steps. Qed.

Lemma keeps_os_Open env path : keeps (Entry := Entry) (os_Open env path).
Proof. unfold os_Open. keeps_steps. Qed.

Lemma keeps_file_ReadAll env path : keeps (Entry := Entry) (file_ReadAll env path).
Proof. unfold file_ReadAll. keeps_steps. Qed.

Lemma keeps_ioutil_WriteFile env path data : keeps (Entry := Entry) (ioutil_WriteFile env path data).
Proof. unfold ioutil_WriteFile. keeps_steps. Qed.

Lemma keeps_obj_Attrs env name : keeps (Entry := Entry) (obj_Attrs env name).
Proof. unfold obj_Attrs. keeps_steps. Qed.

Lemma keeps_obj_NewReader env name : keeps (Entry := Entry) (obj_NewReader env name).
Proof. unfold obj_NewReader. keeps_steps. Qed.

Lemma keeps_obj_ReadAll env name : keeps (Entry := Entry) (obj_ReadAll env name).
Proof. unfold obj_ReadAll. keeps_steps. Qed.

Lemma keeps_io_Copy env name data : keeps (Entry := Entry) (io_Copy env name data).
Proof. unfold io_Copy. keeps_steps. Qed.

Lemma keeps_writer_Close env name data : keeps (Entry := Entry) (writer_Close env name data).
Proof. unfold writer_Close. keeps_steps. Qed.

Ltac keeps_ops :=
  repeat first
    [ apply keeps_os_MkdirAll | apply keeps_os_Open | apply keeps_file_ReadAll
    | apply keeps_ioutil_WriteFile | apply keeps_obj_Attrs
    | apply keeps_obj_NewReader | apply keeps_obj_ReadAll | apply keeps_io_Copy
    | apply keeps_writer_Close | progress keeps_steps ].

Lemma keeps_manifestFromLocalCache env key : keeps (Entry := Entry) (manifestFromLocalCache env key).
Proof. unfold manifestFromLocalCache. keeps_ops. Qed.

Lemma keeps_localCacheManifest env key m : keeps (Entry := Entry) (localCacheManifest env key m).
Proof. unfold localCacheManifest. keeps_ops. Qed.

Lemma keeps_layerFromLocalCache key : keeps (Entry := Entry) (layerFromLocalCache key).
Proof. unfold layerFromLocalCache. keeps_ops. Qed.

Lemma keeps_run_all env gs : keeps (Entry := Entry) (run_all env gs).
Proof.
  induction gs as [|g gs IH]; cbn; [apply keeps_ret|].
  apply keeps_bind; [|done].
  destruct g; [apply keeps_localCacheManifest | apply keeps_localCacheLayer].
Qed.

Lemma keeps_NewCache env : keeps (Entry := Entry) (NewCache env).
Proof. unfold NewCache. keeps_ops. Qed.

Lemma keeps_manifestFromCache env key :
  keeps (Entry := Entry) (manifestFromCache env key).
Proof.
  unfold manifestFromCache. apply keeps_bind;
    [apply keeps_manifestFromLocalCache | intros ?; keeps_ops].
Qed.

Lemma keeps_cacheManifest env key m :
  keeps (Entry := Entry) (cacheManifest env key m).
Proof. unfold cacheManifest. keeps_ops. Qed.

Lemma keeps_layerFromCache env key : keeps (layerFromCache env key).
Proof.
  unfold layerFromCache. apply keeps_bind;
    [apply keeps_layerFromLocalCache | intros ?; keeps_ops].
Qed.

Lemma keeps_cacheLayer env key (e : Entry) : keeps (cacheLayer env key e).
Proof. unfold cacheLayer. keeps_ops. Qed.

Lemma keeps_await env : keeps (Entry := Entry) (await env).
Proof.
  unfold await. apply keeps_bind; [apply keeps_get | intros w0].
  apply keeps_bind; [intros w; by unfold grows | intros _].
  apply keeps_run_all.
Qed.

(** X3. No operation of the cache evicts anything.  Across [NewCache],
    the four lookups and stores of the local cache, the four operations in
    front of the bucket and the run of any goroutines started, every file,
    every object of the bucket and every key of the layer map that was
    there is still there, every entry handed out through a pointer is as
    it was, and the cache keeps its backing directory. *)
Theorem cache_never_evicts env key (m : bytes) (e : Entry) w :
  grows w (snd (NewCache env w)) /\
  grows w (snd (manifestFromLocalCache env key w)) /\
  grows w (snd (localCacheManifest env key m w)) /\
  grows w (snd (layerFromLocalCache key w)) /\
  grows w (snd (localCacheLayer key e w)) /\
  grows w (snd (manifestFromCache env key w)) /\
  grows w (snd (cacheManifest env key m w)) /\
  grows w (snd (layerFromCache env key w)) /\
  grows w (snd (cacheLayer env key e w)) /\
  grows w (snd (await env w)).
Proof.
  split; [exact (keeps_NewCache env w)|].
  split; [exact (keeps_manifestFromLocalCache env key w)|].
  split; [exact (keeps_localCacheManifest env key m w)|].
  split; [exact (keeps_layerFromLocalCache key w)|].
  split; [exact (keeps_localCacheLayer key e w)|].
  split; [exact (keeps_manifestFromCache env key w)|].
  split; [exact (keeps_cacheManifest env key m w)|].
  split; [exact (keeps_layerFromCache env key w)|].
  split; [exact (keeps_cacheLayer env key e w)|].
  exact (keeps_await env w).
Qed.

(** ** Keys and namespaces *)

Lemma name_inj (prefix key key' : string) :
  key <> key' -> prefix +:+ key <> prefix +:+ key'.
Proof. intros Hne Heq. by apply Hne, (inj (String.app prefix)). Qed.

Lemma namespaces_disjoint (k k' : string) :
  "builds/" +:+ k <> "manifests/" +:+ k'.
Proof. cbv [String.append]. discriminate. Qed.

(** What [cacheLayer] leaves behind. *)
Lemma cacheLayer_world env key (e : Entry) w :
  let name := "builds/" +:+ key in
  let w' := snd (cacheLayer env key e w) in
  lcache (Cache w') = <[key := e]> (lcache (Cache w)) /\
  mdir (Cache w') = mdir (Cache w) /\
  Bucket w' = (if env (ObjCopy name) || env (ObjClose name) then Bucket w
               else <[name := jsonMarshal e]> (Bucket w)) /\
  files w' = files w /\ goroutines w' = goroutines w /\ heap w' = heap w.
Proof. cbn zeta. by crunch. Qed.

(** What [cacheManifest] and the goroutine it started leave behind, when
    no other goroutine was in flight. *)
Lemma cacheManifest_await_world env env' key (m : bytes) w :
  let path := mdir (Cache w) +:+ key in
  let name := "manifests/" +:+ key in
  let w' := snd (await env' (snd (cacheManifest env key m w))) in
  goroutines w = [] ->
  Cache w' = Cache w /\
  Bucket w' = (if env (ObjCopy name) || env (ObjClose name) then Bucket w
               else <[name := m]> (Bucket w)) /\
  files w' = (if env' (OsWriteFile path) then files w
              else <[path := m]> (files w)) /\
  goroutines w' = [].
Proof.
  cbn zeta. intros Hgo.
  destruct (cacheManifest_world env key m w) as (Hf1 & Hc1 & Hg1 & Hb1).
  rewrite Hgo, app_nil_l in Hg1.
  rewrite (await_single env' _ _ Hg1). unfold run_goroutine.
  set (w0 := snd (cacheManifest env key m w)) in *. clearbody w0.
  rewrite <- Hf1, <- Hc1, <- Hb1. clear. by crunch.
Qed.

(** X4. A store touches its own key only.  [cacheLayer] changes neither
    the entry of another key in the layer map, nor the object of another
    layer, nor any object of a manifest, nor any file.  [cacheManifest]
    together with its goroutine changes neither the object of another
    manifest, nor any object of a layer, nor the layer map, nor any file
    other than the backing file of its key. *)
Theorem stores_touch_only_their_key env env' key key' (m : bytes) (e : Entry) w :
  key <> key' ->
  (let w1 := snd (cacheLayer env key e w) in
   lcache (Cache w1) !! key' = lcache (Cache w) !! key' /\
   Bucket w1 !! ("builds/" +:+ key') = Bucket w !! ("builds/" +:+ key') /\
   (forall k, Bucket w1 !! ("manifests/" +:+ k) = Bucket w !! ("manifests/" +:+ k)) /\
   files w1 = files w)
  /\
  (let w1 := snd (await env' (snd (cacheManifest env key m w))) in
   goroutines w = [] ->
   Bucket w1 !! ("manifests/" +:+ key') = Bucket w !! ("manifests/" +:+ key') /\
   (forall k, Bucket w1 !! ("builds/" +:+ k) = Bucket w !! ("builds/" +:+ k)) /\
   lcache (Cache w1) = lcache (Cache w) /\
   (forall path, path <> mdir (Cache w) +:+ key ->
      files w1 !! path = files w !! path)).
Proof.
  intros Hne. split; cbn zeta.
  - destruct (cacheLayer_world env key e w) as (-> & _ & -> & -> & _).
    repeat apply conj; [by rewrite lookup_insert_ne | | | done].
    + case_match; [done|]. by rewrite lookup_insert_ne by by apply name_inj.
    + intros k. case_match; [done|].
      by rewrite lookup_insert_ne by apply namespaces_disjoint.
  - intros Hgo.
    destruct (cacheManifest_await_world env env' key m w Hgo)
      as (-> & -> & -> & _).
    repeat apply conj; [ | | done | ].
    + case_match; [done|]. by rewrite lookup_insert_ne by by apply name_inj.
    + intros k. case_match; [done|].
      rewrite lookup_insert_ne; [done|].
      intros Heq. by apply (namespaces_disjoint k key).
    + intros path Hpath. case_match; [done|]. by rewrite lookup_insert_ne.
Qed.

(** X5. Storing the same thing twice is storing it once.  A second
    [cacheLayer] of the same entry under the same key, in the same
    environment, leaves the layer map, the bucket and the files as the
    first one left them; so does, when no other goroutine is in flight, a
    second [cacheManifest] of the same payload, each followed by the run
    of its goroutine. *)
Theorem storing_twice_is_storing_once env env' key (m : bytes) (e : Entry) w :
  (let w1 := snd (cacheLayer env key e w) in
   let w2 := snd (cacheLayer env key e w1) in
   Cache w2 = Cache w1 /\ Bucket w2 = Bucket w1 /\ files w2 = files w1)
  /\
  (let w1 := snd (await env' (snd (cacheManifest env key m w))) in
   let w2 := snd (await env' (snd (cacheManifest env key m w1))) in
   goroutines w = [] ->
   Cache w2 = Cache w1 /\ Bucket w2 = Bucket w1 /\ files w2 = files w1).
Proof.
  split; cbn zeta.
  - destruct (cacheLayer_world env key e (snd (cacheLayer env key e w)))
      as (Hl2 & Hm2 & -> & -> & _).
    destruct (cacheLayer_world env key e w) as (Hl1 & Hm1 & Hb1 & _).
    set (w1 := snd (cacheLayer env key e w)) in *.
    set (w2 := snd (cacheLayer env key e w1)) in *.
    repeat apply conj; [ | | done].
    + destruct (Cache w2), (Cache w1); cbn in *.
      rewrite Hl2, Hl1, insert_insert_eq, <- Hl1. by subst.
    + destruct (env _ || env _); [done|]. by rewrite Hb1, insert_insert_eq.
  - intros Hgo.
    destruct (cacheManifest_await_world env env' key m w Hgo)
      as (Hc1 & Hb1 & Hf1 & Hg1).
    set (w1 := snd (await env' (snd (cacheManifest env key m w)))) in *.
    destruct (cacheManifest_await_world env env' key m w1 Hg1)
      as (-> & -> & -> & _).
    rewrite Hc1. repeat apply conj; [done | |].
    + destruct (env _ || env _); [done|]. by rewrite Hb1, insert_insert_eq.
    + destruct (env' _); [done|]. by rewrite Hf1, insert_insert_eq.
Qed.

(** ** Calls made, misses and restarts *)

(** X6. A store talks to the bucket by one copy and, when the copy
    succeeded, one close; it never probes or reads.  When the copy fails,
    the writer is not closed and the bucket is as it was. *)
Theorem stores_copy_then_close env key (m : bytes) (e : Entry) w :
  let mname := "manifests/" +:+ key in
  let lname := "builds/" +:+ key in
  calls (snd (cacheManifest env key m w)) =
    calls w ++ (if env (ObjCopy mname) then [ObjCopy mname]
                else [ObjCopy mname; ObjClose mname]) /\
  calls (snd (cacheLayer env key e w)) =
    calls w ++ (if env (ObjCopy lname) then [ObjCopy lname]
                else [ObjCopy lname; ObjClose lname]) /\
  (env (ObjCopy mname) = true ->
   Bucket (snd (cacheManifest env key m w)) = Bucket w) /\
  (env (ObjCopy lname) = true ->
   Bucket (snd (cacheLayer env key e w)) = Bucket w).
Proof.
  cbn zeta. repeat apply conj; crunch; by rewrite <- ?app_assoc.
Qed.

(** X7. A miss in both tiers costs one probe and is not an error.  For a
    manifest with neither a backing file nor an object, [manifestFromCache]
    returns the nil result and [false] after one [os.Open] and one
    [obj.Attrs], logs a single entry, of level [Debug], and starts no
    goroutine; for a layer that is in neither the layer map nor the
    bucket, [layerFromCache] returns nil and [false] after one
    [obj.Attrs] and logs nothing. *)
Theorem miss_in_both_tiers env key w :
  (let path := mdir (Cache w) +:+ key in
   let name := "manifests/" +:+ key in
   let r := manifestFromCache env key w in
   files w !! path = None -> Bucket w !! name = None ->
   fst r = (None, false) /\
   calls (snd r) = calls w ++ [OsOpen path; ObjAttrs name] /\
   level <$> logs (snd r) = (level <$> logs w) ++ [Debug] /\
   goroutines (snd r) = goroutines w)
  /\
  (let name := "builds/" +:+ key in
   let r := layerFromCache env key w in
   lcache (Cache w) !! key = None -> Bucket w !! name = None ->
   fst r = (None, false) /\
   calls (snd r) = calls w ++ [ObjAttrs name] /\
   logs (snd r) = logs w /\
   goroutines (snd r) = goroutines w /\ Cache (snd r) = Cache w).
Proof.
  split; cbn zeta.
  - intros Hfile Hobj.
    crunch; rewrite <- ?app_assoc, ?fmap_app; by repeat apply conj.
  - intros Hmiss Hobj. unfold layerFromCache. rewrite bind_run.
    rewrite layerFromLocalCache_eq, Hmiss; cbn. by crunch.
Qed.

(** X8. A layer stored by one process is found by another through the
    bucket.  When [cacheLayer] wrote the object, a process that shares
    the bucket and has nothing under the key in its layer map gets, from
    a [layerFromCache] that the bucket serves, the entry that the stored
    bytes unmarshal to. *)
Theorem layer_round_trip_through_bucket env1 env2 key (e e' : Entry) w w2 :
  let name := "builds/" +:+ key in
  let r := layerFromCache env2 key w2 in
  env1 (ObjCopy name) = false -> env1 (ObjClose name) = false ->
  jsonUnmarshal (jsonMarshal e) = Some e' ->
  Bucket w2 !! name = Bucket (snd (cacheLayer env1 key e w)) !! name ->
  lcache (Cache w2) !! key = None ->
  env2 (ObjAttrs name) = false -> env2 (ObjNewReader name) = false ->
  env2 (ObjRead name) = false ->
  snd (fst r) = true /\ deref (snd r) (fst (fst r)) = Some e' /\
  goroutines (snd r) = goroutines w2 ++ [GoLocalCacheLayer key e'].
Proof.
  cbn zeta. intros Hcopy Hclose Hjson Hshare Hmiss Hattrs Hreader Hread.
  destruct (cacheLayer_world env1 key e w) as (_ & _ & Hb & _).
  rewrite Hb, Hcopy, Hclose in Hshare; cbn in Hshare.
  rewrite lookup_insert_eq in Hshare.
  destruct (layerFromCache_bucket_hit env2 key (jsonMarshal e) e' w2)
    as (Hres & Hderef & Hg & _); [done..|].
  by rewrite Hres.
Qed.

(** X9. [NewCache] does not empty the backing directory.  A cache built
    where the directory already holds a file for a key serves that
    manifest from the file, without a call to the bucket, while its layer
    map starts empty. *)
Theorem manifests_survive_NewCache env env' key (m : bytes) w :
  let path := ((tempDir w +:+ "/nixery") +:+ "/") +:+ key in
  let r := NewCache env w in
  let w' := set_Cache (fst (fst r)) (snd r) in
  snd (fst r) = None ->
  files w !! path = Some m ->
  env' (OsOpen path) = false -> env' (OsReadAll path) = false ->
  manifestFromCache env' key w' =
    (Some m, true, set_calls (calls w' ++ [OsOpen path; OsReadAll path]) w') /\
  lcache (Cache w') = ∅.
Proof.
  cbn zeta. intros Hok Hfile Hopen Hread.
  assert (Hc : fst (fst (NewCache env w)) =
               mkLocalCache ((tempDir w +:+ "/nixery") +:+ "/") ∅).
  { revert Hok. by crunch. }
  assert (Hf : files (snd (NewCache env w)) = files w) by by crunch.
  rewrite Hc. set (w1 := snd (NewCache env w)) in *. clearbody w1.
  split; [|done].
  set (w' := set_Cache _ w1).
  assert (Hhit : snd (fst (manifestFromLocalCache env' key w')) = true).
  { rewrite manifestFromLocalCache_result; cbn. by rewrite Hopen, Hf, Hfile, Hread. }
  destruct (manifestFromCache_local_hit env' key w' Hhit) as (m' & Hm' & ->).
  cbn in Hm'. rewrite Hf, Hfile in Hm'. by simplify_eq.
Qed.

Lemma await_pair env g1 g2 w :
  goroutines w = [g1; g2] ->
  snd (await env w) =
    snd (run_goroutine env g2 (snd (run_goroutine env g1 (set_goroutines [] w)))).
Proof.
  intros Hg. unfold await, bind at 1 2, get, modify; cbn. rewrite Hg; cbn.
  by rewrite !bind_run.
Qed.

(** X10. A fetch that overtakes the local write.  When [cacheManifest]
    wrote the object and its goroutine has not run yet, a
    [manifestFromCache] that misses locally gets the payload from the
    bucket and starts a second goroutine for the same payload; once both
    have run, the second write having succeeded, the backing file holds
    the payload and nothing else has changed in the files. *)
Theorem fetch_overtakes_local_write env1 env2 env3 key (p : bytes) w :
  let path := mdir (Cache w) +:+ key in
  let name := "manifests/" +:+ key in
  let w1 := snd (cacheManifest env1 key p w) in
  let r := manifestFromCache env2 key w1 in
  let w3 := snd (await env3 (snd r)) in
  goroutines w = [] ->
  snd (fst (manifestFromLocalCache env2 key w)) = false ->
  env1 (ObjCopy name) = false -> env1 (ObjClose name) = false ->
  env2 (ObjAttrs name) = false -> env2 (ObjNewReader name) = false ->
  env2 (ObjRead name) = false ->
  env3 (OsWriteFile path) = false ->
  fst r = (Some p, true) /\
  goroutines (snd r) =
    [GoLocalCacheManifest key p; GoLocalCacheManifest key p] /\
  files (snd r) = files w /\
  files w3 = <[path := p]> (files w).
Proof.
  cbn zeta. intros Hgo Hmiss Hcopy Hclose Hattrs Hreader Hread Hwrite.
  destruct (cacheManifest_world env1 key p w) as (Hf1 & Hc1 & Hg1 & Hb1).
  rewrite Hgo, app_nil_l in Hg1.
  set (w1 := snd (cacheManifest env1 key p w)) in *. clearbody w1.
  rewrite Hcopy, Hclose in Hb1; cbn in Hb1.
  assert (Hmiss1 : snd (fst (manifestFromLocalCache env2 key w1)) = false).
  { rewrite manifestFromLocalCache_result in Hmiss |- *.
    by rewrite Hf1, Hc1. }
  destruct (manifestFromCache_bucket_hit env2 key p w1) as (Hres & Hg);
    [done | done | by rewrite Hb1, lookup_insert_eq | done | done |].
  destruct (manifestFromCache_frame env2 key w1) as (Hf & Hc & _).
  rewrite Hg1 in Hg; cbn in Hg.
  rewrite (await_pair env3 _ _ _ Hg). unfold run_goroutine.
  set (w2 := snd (manifestFromCache env2 key w1)) in *. clearbody w2.
  repeat apply conj; [done | done | congruence |].
  set (wa := set_goroutines [] w2).
  assert (Hfa : files wa = files w) by (cbn; congruence).
  assert (Hca : Cache wa = Cache w) by (cbn; congruence).
  destruct (localCacheManifest_world env3 key p wa) as (Hcb & _ & _ & Hfb).
  set (wb := snd (localCacheManifest env3 key p wa)) in *. clearbody wb.
  rewrite Hca in Hcb, Hfb. rewrite Hfa in Hfb. specialize (Hfb Hwrite).
  destruct (localCacheManifest_world env3 key p wb) as (_ & _ & _ & Hfc).
  rewrite Hcb in Hfc. rewrite (Hfc Hwrite), Hfb. apply insert_insert_eq.
Qed.

End Properties.

(** * The scenario, evaluated *)

Import Scenario.

(** C1 as stated fails: when the backing directory can not be written to
    and the bucket can not be reached, [cacheManifest] and its goroutine complete, both writes having
    failed and been logged, and a later [manifestFromCache], in an
    environment where nothing fails, does not find the payload. *)
Lemma store_is_lost_when_both_writes_fail :
  fst (manifestFromCache healthy "abc"
         (snd (await unwritable_and_offline
                 (snd (cacheManifest unwritable_and_offline "abc" x1 fresh)))))
    = (None, false) /\
  fst (manifestFromCache healthy "abc"
         (snd (await unwritable_and_offline
                 (snd (cacheManifest unwritable_and_offline "abc" x1 fresh)))))
    <> (Some x1, true).
Proof. split; [vm_compute; reflexivity | vm_compute; discriminate]. Qed.

Lemma cacheManifest_then_manifestFromCache_witness :
  fst (manifestFromCache healthy "abc" fresh) = (None, false) /\
  fst (manifestFromCache healthy "abc"
         (snd (await healthy (snd (cacheManifest healthy "abc" x1 fresh)))))
    = (Some x1, true) /\
  fst (manifestFromCache healthy "abc"
         (snd (await unwritable (snd (cacheManifest healthy "abc" x1 fresh)))))
    = (Some x1, true).
Proof.
  destruct (cacheManifest_then_manifestFromCache healthy healthy healthy
              "abc" x1 fresh eq_refl) as (Hempty & Hlocal & _).
  destruct (cacheManifest_then_manifestFromCache healthy unwritable healthy
              "abc" x1 fresh eq_refl) as (_ & _ & Hbucket).
  repeat apply conj.
  - apply Hempty; reflexivity.
  - apply Hlocal; reflexivity.
  - apply Hbucket; reflexivity.
Defined.

Lemma cache_errors_do_not_propagate_witness :
  fst (manifestFromLocalCache all_fail "abc" fresh) = (None, false) /\
  fst (manifestFromCache all_fail "abc" fresh) = (None, false) /\
  fst (layerFromCache all_fail "abc" fresh) = (None, false) /\
  level <$> logs (snd (cacheManifest all_fail "abc" x1 fresh)) = [Error] /\
  level <$> logs (snd (localCacheManifest all_fail "abc" x1 fresh)) = [Error] /\
  level <$> logs (snd (cacheLayer all_fail "abc" L1 fresh)) = [Error] /\
  snd (fst (NewCache all_fail boot)) = Some (ErrFailed "/tmp/nixery").
Proof.
  pose proof (cache_errors_do_not_propagate all_fail "abc" x1 L1 fresh)
    as (H1 & H2 & H3 & H4 & H5 & H6 & _).
  pose proof (cache_errors_do_not_propagate all_fail "abc" x1 L1 boot)
    as (_ & _ & _ & _ & _ & _ & H7).
  repeat apply conj.
  - apply H1. left. reflexivity.
  - apply H2; [reflexivity | left; reflexivity].
  - apply H3; [reflexivity | left; reflexivity].
  - rewrite H4; [reflexivity | left; reflexivity].
  - rewrite H5; reflexivity.
  - rewrite H6; [reflexivity | left; reflexivity].
  - exact H7.
Defined.

Lemma failed_bucket_read_writes_nothing_witness :
  fst (manifestFromCache read_fails "abc" with_objects) = (None, false) /\
  goroutines (snd (manifestFromCache read_fails "abc" with_objects)) = [] /\
  fst (layerFromCache healthy "L1" with_objects) = (None, false) /\
  goroutines (snd (layerFromCache healthy "L1" with_objects)) = [] /\
  lcache (Cache (snd (layerFromCache healthy "L1" with_objects))) = ∅.
Proof.
  destruct (failed_bucket_read_writes_nothing read_fails "abc" with_objects x1)
    as [Hm _].
  destruct (failed_bucket_read_writes_nothing healthy "L1" with_objects
              truncated) as [_ Hl].
  destruct Hm as (Hm1 & _ & _ & Hm2 & _);
    [reflexivity | reflexivity | reflexivity | left; reflexivity |].
  destruct Hl as (Hl1 & _ & Hl2 & Hl3 & _);
    [reflexivity | reflexivity | reflexivity | right; right; reflexivity |].
  rewrite Hl2. repeat apply conj; assumption || reflexivity.
Defined.

Lemma local_hit_skips_bucket_witness :
  (exists m, fst (manifestFromCache healthy "abc" with_manifest)
             = (Some m, true)) /\
  calls (snd (manifestFromCache healthy "abc" with_manifest))
    = [OsOpen "/tmp/nixery/abc"; OsReadAll "/tmp/nixery/abc"] /\
  calls (snd (layerFromCache all_fail "L1" with_layer)) = [].
Proof.
  destruct (local_hit_skips_bucket healthy "abc" with_manifest) as [Hm _].
  destruct (local_hit_skips_bucket all_fail "L1" with_layer) as [_ Hl].
  destruct Hm as (m & _ & Hm); [reflexivity|].
  destruct Hl as (e & _ & Hl & _); [reflexivity|].
  rewrite Hm, Hl. repeat apply conj; try reflexivity.
  exists m. reflexivity.
Defined.

(** The layer scenario of the specification: L1 is stored and found again
    with its hash and its size. *)
Example layer_scenario :
  snd (fst (layerFromCache healthy "L1" (snd (cacheLayer healthy "L1" L1 fresh))))
    = true /\
  deref (snd (layerFromCache healthy "L1" (snd (cacheLayer healthy "L1" L1 fresh))))
        (fst (fst (layerFromCache healthy "L1"
                     (snd (cacheLayer healthy "L1" L1 fresh)))))
    = Some (mkEntry "deadbeef" 42).
Proof. split; vm_compute; reflexivity. Qed.

(** The bytes written for L1 are read back as L1 by a process that starts
    with an empty layer map. *)
Example layer_scenario_through_bucket :
  jsonUnmarshal (jsonMarshal L1) = Some L1 /\
  Bucket (snd (cacheLayer healthy "L1" L1 fresh)) !! "builds/L1"
    = Some (jsonMarshal L1).
Proof. split; vm_compute; reflexivity. Qed.

(** C6 as stated fails: the backing file exists and can not be opened, a
    read failure other than absence, and the entry logged for it has level
    [Debug], not [Error]. *)
Lemma open_failure_is_logged_at_debug :
  files with_manifest !! "/tmp/nixery/abc" = Some x1 /\
  fst (manifestFromLocalCache open_denied "abc" with_manifest) = (None, false) /\
  logs (snd (manifestFromLocalCache open_denied "abc" with_manifest)) =
    [mkLog Debug (Some (ErrFailed "/tmp/nixery/abc")) [("manifest", FStr "abc")]
           "failed to read manifest from local cache"].
Proof. repeat apply conj; vm_compute; reflexivity. Qed.

Lemma manifestFromLocalCache_levels_witness :
  level <$> logs (snd (manifestFromLocalCache healthy "abc" fresh)) = [Debug] /\
  level <$> logs (snd (manifestFromLocalCache read_denied "abc" with_manifest))
    = [Error] /\
  fst (manifestFromLocalCache healthy "abc" with_manifest) = (Some x1, true).
Proof.
  destruct (manifestFromLocalCache_levels healthy "abc" fresh) as (Hd & _ & _).
  destruct (manifestFromLocalCache_levels read_denied "abc" with_manifest)
    as (_ & He & _).
  destruct (manifestFromLocalCache_levels healthy "abc" with_manifest)
    as (_ & _ & Hhit).
  destruct Hd as (_ & err & Hd); [right; reflexivity|].
  destruct He as (_ & He); [reflexivity | by eexists | reflexivity |].
  destruct (Hhit x1) as (Hhit' & _); [reflexivity..|].
  rewrite Hd, He. repeat apply conj; assumption || reflexivity.
Defined.

(** C8 as stated fails: two caches built one after the other have the same
    backing directory, and the manifest cached through the first is found
    through the second. *)
Lemma two_caches_share_the_directory :
  snd (fst (NewCache healthy boot)) = None /\
  snd (fst (NewCache healthy (snd (NewCache healthy boot)))) = None /\
  mdir (fst (fst (NewCache healthy boot))) = "/tmp/nixery/" /\
  mdir (fst (fst (NewCache healthy (snd (NewCache healthy boot)))))
    = "/tmp/nixery/" /\
  fst (manifestFromLocalCache healthy "abc"
         (set_Cache (fst (fst (NewCache healthy (snd (NewCache healthy boot)))))
            (snd (localCacheManifest healthy "abc" x1
                    (set_Cache (fst (fst (NewCache healthy boot)))
                       (snd (NewCache healthy (snd (NewCache healthy boot)))))))))
    = (Some x1, true).
Proof. repeat apply conj; vm_compute; reflexivity. Qed.

Lemma NewCache_backing_directory_witness :
  "/tmp/nixery" ∈ dirs (snd (NewCache healthy boot)) /\
  mdir (fst (fst (NewCache healthy boot))) = "/tmp/nixery/" /\
  lcache (fst (fst (NewCache healthy boot))) = ∅.
Proof.
  destruct (NewCache_backing_directory healthy boot eq_refl)
    as (Hdir & Hmdir & Hmap & _).
  repeat apply conj; assumption.
Defined.

Lemma layerFromLocalCache_miss_zero_witness :
  exists l,
    fst (layerFromLocalCache "L1" fresh) = (Some l, false) /\
    deref (snd (layerFromLocalCache "L1" fresh)) (Some l) = Some (mkEntry "" 0).
Proof. exact (layerFromLocalCache_miss_zero "L1" fresh eq_refl). Defined.

Lemma manifest_write_back_witness :
  fst (manifestFromCache healthy "abc" with_objects) = (Some x1, true) /\
  files (snd (manifestFromCache healthy "abc" with_objects)) = ∅ /\
  fst (manifestFromCache read_fails "abc"
         (snd (await healthy (snd (manifestFromCache healthy "abc" with_objects)))))
    = (Some x1, true).
Proof.
  destruct (manifest_write_back healthy healthy read_fails "abc" x1 with_objects)
    as (Hres & Hfiles & _ & Hagain); [reflexivity..|].
  rewrite Hagain. repeat apply conj; assumption || reflexivity.
Defined.

Lemma layer_write_back_witness :
  snd (fst (layerFromCache healthy "L1" with_layer_object)) = true /\
  lcache (Cache (snd (await healthy
                        (snd (layerFromCache healthy "L1" with_layer_object)))))
    = <["L1" := L1]> ∅ /\
  snd (fst (layerFromCache all_fail "L1"
              (snd (await healthy
                      (snd (layerFromCache healthy "L1" with_layer_object))))))
    = true.
Proof.
  destruct (layer_write_back healthy healthy all_fail "L1" (marshal L1) L1
              with_layer_object)
    as (Hres & _ & _ & Hmap & Hagain & _); [reflexivity..|].
  repeat apply conj; assumption.
Defined.

Lemma stores_touch_only_their_key_witness :
  lcache (Cache (snd (cacheLayer healthy "L1" L1 with_layer))) !! "L2" = None /\
  Bucket (snd (await healthy (snd (cacheManifest healthy "abc" x1 with_objects))))
    !! "manifests/abd" = None.
Proof.
  assert (Hne1 : "L1" <> "L2") by discriminate.
  assert (Hne2 : "abc" <> "abd") by discriminate.
  destruct (stores_touch_only_their_key healthy healthy "L1" "L2" x1 L1
              with_layer Hne1) as ((Hl & _) & _).
  destruct (stores_touch_only_their_key healthy healthy "abc" "abd" x1 L1
              with_objects Hne2) as (_ & Hm).
  destruct (Hm eq_refl) as (Hb & _).
  split; [exact (eq_trans Hl eq_refl) | exact (eq_trans Hb eq_refl)].
Defined.

Lemma storing_twice_is_storing_once_witness :
  files (snd (await healthy
                (snd (cacheManifest healthy "abc" x1
                        (snd (await healthy
                                (snd (cacheManifest healthy "abc" x1 fresh))))))))
    = files (snd (await healthy (snd (cacheManifest healthy "abc" x1 fresh)))).
Proof.
  destruct (storing_twice_is_storing_once healthy healthy "abc" x1 L1 fresh)
    as (_ & Hm).
  destruct (Hm eq_refl) as (_ & _ & Hfiles). exact Hfiles.
Defined.

Lemma stores_copy_then_close_witness :
  Bucket (snd (cacheManifest all_fail "abc" x1 fresh)) = ∅ /\
  Bucket (snd (cacheLayer all_fail "L1" L1 fresh)) = ∅.
Proof.
  destruct (stores_copy_then_close all_fail "abc" x1 L1 fresh)
    as (_ & _ & Hm & _).
  destruct (stores_copy_then_close all_fail "L1" x1 L1 fresh)
    as (_ & _ & _ & Hl).
  split; [apply Hm | apply Hl]; reflexivity.
Defined.

Lemma miss_in_both_tiers_witness :
  calls (snd (manifestFromCache healthy "abc" fresh))
    = [OsOpen "/tmp/nixery/abc"; ObjAttrs "manifests/abc"] /\
  calls (snd (layerFromCache healthy "L1" fresh)) = [ObjAttrs "builds/L1"].
Proof.
  destruct (miss_in_both_tiers healthy "abc" fresh) as (Hm & _).
  destruct (miss_in_both_tiers healthy "L1" fresh) as (_ & Hl).
  destruct Hm as (_ & Hm & _); [reflexivity..|].
  destruct Hl as (_ & Hl & _); [reflexivity..|].
  split; assumption.
Defined.

Lemma layer_round_trip_through_bucket_witness :
  snd (fst (layerFromCache healthy "L1" with_layer_object)) = true /\
  deref (snd (layerFromCache healthy "L1" with_layer_object))
        (fst (fst (layerFromCache healthy "L1" with_layer_object)))
    = Some L1.
Proof.
  destruct (layer_round_trip_through_bucket healthy healthy "L1" L1 L1 fresh
              with_layer_object)
    as (Hres & Hderef & _); [reflexivity..|].
  split; assumption.
Defined.

Lemma manifests_survive_NewCache_witness :
  fst (manifestFromCache read_fails "abc"
         (set_Cache (fst (fst (NewCache healthy boot_with_manifest)))
                    (snd (NewCache healthy boot_with_manifest))))
    = (Some x1, true).
Proof.
  destruct (manifests_survive_NewCache healthy read_fails "abc" x1
              boot_with_manifest) as (Hres & _); [reflexivity..|].
  rewrite Hres. reflexivity.
Defined.

Lemma fetch_overtakes_local_write_witness :
  fst (manifestFromCache healthy "abc"
         (snd (cacheManifest healthy "abc" x1 fresh))) = (Some x1, true) /\
  length (goroutines (snd (manifestFromCache healthy "abc"
                             (snd (cacheManifest healthy "abc" x1 fresh))))) = 2.
Proof.
  destruct (fetch_overtakes_local_write healthy healthy healthy "abc" x1 fresh)
    as (Hres & Hgo & _); [reflexivity..|].
  rewrite Hgo. split; [assumption | reflexivity].
Defined.

Lemma layerFromLocalCache_returns_copy_witness :
  deref (snd (layerFromLocalCache "L1" with_layer))
        (fst (fst (layerFromLocalCache "L1" with_layer))) = Some L1 /\
  deref (assign (fst (fst (layerFromLocalCache "L1" with_layer)))
                (mkEntry "changed" 0) (snd (layerFromLocalCache "L1" with_layer)))
        (fst (fst (layerFromLocalCache "L1" with_layer)))
    = Some (mkEntry "changed" 0) /\
  deref (snd (layerFromLocalCache "L1"
                (assign (fst (fst (layerFromLocalCache "L1" with_layer)))
                        (mkEntry "changed" 0)
                        (snd (layerFromLocalCache "L1" with_layer)))))
        (fst (fst (layerFromLocalCache "L1"
                (assign (fst (fst (layerFromLocalCache "L1" with_layer)))
                        (mkEntry "changed" 0)
                        (snd (layerFromLocalCache "L1" with_layer))))))
    = Some L1.
Proof.
  destruct (layerFromLocalCache_returns_copy "L1" with_layer
              (mkEntry "changed" 0)) as (Hcell & _ & _ & _ & _ & _ & Hhit).
  destruct (Hhit L1 eq_refl) as (_ & Hfirst & _ & _ & Hsecond).
  repeat apply conj; assumption.
Defined.
